(** * First-run setup of the CLI: [packages/cli/src/config/firstRunSetup.ts]

    The module prompts the terminal user for three answers (API key, base
    URL, model), fills in defaults, and writes the result into the user
    scope of the settings store.  It is embedded here as state-passing
    code over an explicit [World]: the lines waiting on standard input, the
    process environment, the readline sessions and the trace of observable
    calls.  The settings store is handed to [handleFirstRunSetup] and
    handed back as the call leaves it. *)

From Stdlib Require Import ZArith NArith Ascii String.
From stdpp Require Import base list gmap.

Local Open Scope N_scope.

(** ** JavaScript strings *)

(** A JavaScript string is a sequence of 16-bit code units. *)
Abbreviation jsstring := (list N).

(** An ASCII literal as a JavaScript string. *)
Definition js (s : string) : jsstring :=
  map N_of_ascii (list_ascii_of_string s).

(** The code units that [String.prototype.trim] strips: the ECMAScript
    WhiteSpace and LineTerminator productions.  All of them lie in the
    basic plane, so the test is exact on code units. *)
Definition isWhiteSpace (c : N) : bool :=
  (9 <=? c) && (c <=? 13)            (* TAB, LF, VT, FF, CR *)
  || (c =? 32)                       (* SPACE *)
  || (c =? 160)                      (* NO-BREAK SPACE *)
  || (c =? 5760)                     (* U+1680 *)
  || (8192 <=? c) && (c <=? 8202)    (* U+2000 .. U+200A *)
  || (c =? 8232) || (c =? 8233)      (* U+2028, U+2029 *)
  || (c =? 8239)                     (* U+202F *)
  || (c =? 8287)                     (* U+205F *)
  || (c =? 12288)                    (* U+3000 *)
  || (c =? 65279).                   (* U+FEFF *)

Fixpoint trimStart (s : jsstring) : jsstring :=
  match s with
  | c :: s' => if isWhiteSpace c then trimStart s' else s
  | [] => []
  end.

Definition trimEnd (s : jsstring) : jsstring :=
  rev (trimStart (rev s)).

(** [s.trim()] *)
Definition trim (s : jsstring) : jsstring :=
  trimEnd (trimStart s).

(** Truthiness of a string value: only the empty string is falsy. *)
Definition truthy (s : jsstring) : bool :=
  match s with
  | [] => false
  | _ :: _ => true
  end.

(** Truthiness of a [string | undefined] value. *)
Definition truthy_opt (o : option jsstring) : bool :=
  match o with
  | Some s => truthy s
  | None => false
  end.

(** [a || b] on strings. *)
Definition or_else (a b : jsstring) : jsstring :=
  if truthy a then a else b.

(** [hay.includes(needle)] *)
Definition includes (needle hay : jsstring) : Prop :=
  exists pre post, hay = pre ++ needle ++ post.

(** ** The settings store *)

(** Modelled from the spec: the enum [SettingScope] of [./settings.js],
    which is imported but not part of this module.  Only the member
    [User] is named here; the other members stand for the scopes a
    write could address instead. *)
Inductive SettingScope : Type := User | Workspace | System.

(** Modelled from the spec: the class [LoadedSettings] of [./settings.js].
    The module uses three things of a store [settings]: the property
    [settings.user.settings.openaiApiKey] (a string or undefined), the
    string [settings.user.path], and the method
    [settings.setValue(scope, key, value)], which returns nothing and
    updates the store.  Any type with these three operations is a store. *)
Class SettingsStore (S : Type) : Type := {
  user_openaiApiKey : S -> option jsstring;
  user_path : S -> jsstring;
  setValue : SettingScope -> jsstring -> jsstring -> S -> S
}.

(** The value built by [promptForOpenAIConfig]. *)
Record FirstRunConfig : Type := mkFirstRunConfig {
  openaiApiKey : jsstring;
  openaiBaseUrl : jsstring;
  openaiModel : jsstring
}.

(** ** The process and its observable behaviour *)

(** [new Error(message)] *)
Inductive JsError : Type := Error (message : jsstring).

(** The calls that can be observed from outside, in the order made. *)
Inductive Event : Type :=
| ConsoleLog (line : jsstring)                     (* console.log, standard output *)
| ConsoleError (msg : jsstring) (err : JsError)     (* console.error, standard error *)
| Question (rl : nat) (query : jsstring)            (* rl.question writes its query *)
| SetValue (scope : SettingScope) (key value : jsstring).

(** The state of the process around the module.  A readline interface is
    known by its index in [sessions]; the flag says whether it is open. *)
Record World : Type := mkWorld {
  stdin : list jsstring;
  env : gmap jsstring jsstring;
  sessions : list bool;
  trace : list Event
}.

(** How a call ends: it returns, it throws, the process has exited, or an
    [await] is never resumed because no line arrives. *)
Inductive Outcome (A : Type) : Type :=
| Returned (a : A)
| Thrown (e : JsError)
| Exited (code : Z)
| Pending.
Arguments Returned {A} a.
Arguments Thrown {A} e.
Arguments Exited {A} code.
Arguments Pending {A}.

Definition M (A : Type) : Type := World -> Outcome A * World.

Definition ret {A} (a : A) : M A := fun w => (Returned a, w).

Definition bind {A B} (m : M A) (k : A -> M B) : M B :=
  fun w =>
    match m w with
    | (Returned a, w') => k a w'
    | (Thrown e, w') => (Thrown e, w')
    | (Exited c, w') => (Exited c, w')
    | (Pending, w') => (Pending, w')
    end.

Notation "'bind!' x <- m ; k" := (bind m (fun x => k))
  (at level 10, x name, m at level 100, k at level 200,
   format "'[v' 'bind!'  x  <-  m ; '/' k ']'").
Notation "'exec!' m ; k" := (bind m (fun _ => k))
  (at level 10, m at level 100, k at level 200,
   format "'[v' 'exec!'  m ; '/' k ']'").

(** [throw e] *)
Definition throw {A} (e : JsError) : M A := fun w => (Thrown e, w).

(** [if (b) { m }] *)
Definition when_ (b : bool) (m : M unit) : M unit :=
  if b then m else ret tt.

(** [try { body } finally { fin }]: the finaliser runs when the body
    returns or throws, and what the body did stands unless the finaliser
    itself does not return. *)
Definition try_finally {A} (body : M A) (fin : M unit) : M A :=
  fun w =>
    match body w with
    | (Returned a, w') => (exec! fin; ret a) w'
    | (Thrown e, w') => (exec! fin; throw e) w'
    | (Exited c, w') => (Exited c, w')
    | (Pending, w') => (Pending, w')
    end.

(** [try { body } catch (error) { handler }] *)
Definition try_catch {A} (body : M A) (handler : JsError -> M A) : M A :=
  fun w =>
    match body w with
    | (Thrown e, w') => handler e w'
    | r => r
    end.

Definition emit (e : Event) : M unit :=
  fun w => (Returned tt,
            mkWorld (stdin w) (env w) (sessions w) (trace w ++ [e])).

Definition console_log (line : jsstring) : M unit := emit (ConsoleLog line).

Definition console_error (msg : jsstring) (err : JsError) : M unit :=
  emit (ConsoleError msg err).

(** [process.exit(code)] *)
Definition process_exit {A} (code : Z) : M A := fun w => (Exited code, w).

(** [process.env[name]] *)
Definition process_env (name : jsstring) : M (option jsstring) :=
  fun w => (Returned (env w !! name), w).

(** [readline.createInterface(...)]: a new open session. *)
Definition readline_createInterface : M nat :=
  fun w => (Returned (length (sessions w)),
            mkWorld (stdin w) (env w) (sessions w ++ [true]) (trace w)).

(** [rl.close()] *)
Definition rl_close (rl : nat) : M unit :=
  fun w => (Returned tt,
            mkWorld (stdin w) (env w) (<[rl := false]> (sessions w)) (trace w)).

(** [rl.question(query, callback)] followed by waiting for the callback:
    the query is written, and the next line of input is the answer. *)
Definition rl_question (rl : nat) (query : jsstring) : M jsstring :=
  exec! emit (Question rl query);
  fun w =>
    match stdin w with
    | answer :: rest =>
        (Returned answer, mkWorld rest (env w) (sessions w) (trace w))
    | [] => (Pending, w)
    end.

(** ** The module *)

Definition createReadlineInterface : M nat := readline_createInterface.

Definition askQuestion (rl : nat) (question : jsstring) : M jsstring :=
  bind! answer <- rl_question rl question;
  ret (trim answer).

Definition welcome_banner : jsstring :=
  [10; 0xD83D; 0xDE80] ++ js " Welcome to Qwen Code!".

Definition default_base_url : jsstring := js "https://api.openai.com/v1".
Definition default_model : jsstring := js "gpt-4".

Definition promptForOpenAIConfig : M FirstRunConfig :=
  bind! rl <- createReadlineInterface;
  exec! console_log welcome_banner;
  exec! console_log (js "Please configure your OpenAI API settings:" ++ [10]);
  try_finally
    (bind! openaiApiKey <- askQuestion rl (js "Enter your OpenAI API Key: ");
     exec! when_ (negb (truthy openaiApiKey))
           (throw (Error (js "OpenAI API Key is required")));
     bind! openaiBaseUrl <- askQuestion rl
       (js "Enter OpenAI Base URL (press Enter for default: https://api.openai.com/v1): ");
     bind! openaiModel <- askQuestion rl
       (js "Enter OpenAI Model (press Enter for default: gpt-4): ");
     ret {| openaiApiKey := openaiApiKey;
            openaiBaseUrl := or_else openaiBaseUrl default_base_url;
            openaiModel := or_else openaiModel default_model |})
    (rl_close rl).

Section Setup.
Context {S : Type} `{!SettingsStore S}.

(** [settings.setValue(scope, key, value)]: the call is observed and the
    store is updated. *)
Definition settings_setValue (settings : S) (scope : SettingScope)
    (key value : jsstring) : M S :=
  exec! emit (SetValue scope key value);
  ret (setValue scope key value settings).

Definition isFirstRun (settings : S) : M bool :=
  let userSettings_openaiApiKey := user_openaiApiKey settings in
  bind! OPENAI_API_KEY <- process_env (js "OPENAI_API_KEY");
  ret (negb (truthy_opt userSettings_openaiApiKey)
       && negb (truthy_opt OPENAI_API_KEY)).

(** The body of the [try] block of [handleFirstRunSetup]. *)
Definition saveFirstRunConfig (settings : S) : M S :=
  bind! config <- promptForOpenAIConfig;
  bind! settings <- settings_setValue settings User (js "openaiApiKey")
                   (openaiApiKey config);
  bind! settings <- settings_setValue settings User (js "openaiBaseUrl")
                   (openaiBaseUrl config);
  bind! settings <- settings_setValue settings User (js "openaiModel")
                   (openaiModel config);
  exec! console_log ([10; 0x2705] ++ js " Configuration saved successfully!");
  exec! console_log (js "Settings saved to: " ++ user_path settings ++ [10]);
  ret settings.

(** The function returns nothing; the store it was given is mutable, so
    the model returns the store as the call leaves it. *)
Definition handleFirstRunSetup (settings : S) : M S :=
  bind! first <- isFirstRun settings;
  if negb first then ret settings
  else
    try_catch (saveFirstRunConfig settings)
      (fun error =>
         exec! console_error ([10; 0x274C] ++ js " Configuration setup failed:") error;
         process_exit 1%Z).
End Setup.

(** ** What a trace contains *)

(** The queries of the questions asked, in order. *)
Fixpoint questions (t : list Event) : list jsstring :=
  match t with
  | Question _ query :: t' => query :: questions t'
  | _ :: t' => questions t'
  | [] => []
  end.

(** The arguments of the calls of [setValue], in order. *)
Fixpoint setter_calls (t : list Event)
    : list (SettingScope * jsstring * jsstring) :=
  match t with
  | SetValue scope key value :: t' => (scope, key, value) :: setter_calls t'
  | _ :: t' => setter_calls t'
  | [] => []
  end.

(** What was written to standard error, in order. *)
Fixpoint stderr_output (t : list Event) : list (jsstring * JsError) :=
  match t with
  | ConsoleError msg err :: t' => (msg, err) :: stderr_output t'
  | _ :: t' => stderr_output t'
  | [] => []
  end.

(** A value of type [string | undefined] that is unset or empty. *)
Definition absent_or_empty (o : option jsstring) : Prop :=
  o = None \/ o = Some [].

(** A value of type [string | undefined] that holds a non-empty string. *)
Definition present (o : option jsstring) : Prop :=
  exists c s, o = Some (c :: s).

(** A string of white space only (the empty string included). *)
Definition whitespace_only (s : jsstring) : Prop :=
  Forall (fun c => isWhiteSpace c = true) s.

(** ** A store in memory *)

(** The simplest store: one map per scope and the path of the user file. *)
Record MemoryStore : Type := mkMemoryStore {
  ms_user : gmap jsstring jsstring;
  ms_workspace : gmap jsstring jsstring;
  ms_system : gmap jsstring jsstring;
  ms_user_path : jsstring
}.

#[export] Instance MemoryStore_store : SettingsStore MemoryStore := {
  user_openaiApiKey s := ms_user s !! js "openaiApiKey";
  user_path s := ms_user_path s;
  setValue scope key value s :=
    match scope with
    | User =>
        mkMemoryStore (<[key := value]> (ms_user s)) (ms_workspace s)
          (ms_system s) (ms_user_path s)
    | Workspace =>
        mkMemoryStore (ms_user s) (<[key := value]> (ms_workspace s))
          (ms_system s) (ms_user_path s)
    | System =>
        mkMemoryStore (ms_user s) (ms_workspace s)
          (<[key := value]> (ms_system s)) (ms_user_path s)
    end
}.

(** A store with no setting at all, kept in [~/.qwen/settings.json]. *)
Definition fresh_store : MemoryStore :=
  mkMemoryStore ∅ ∅ ∅ (js "~/.qwen/settings.json").

(** A world where the user will type the given lines. *)
Definition typing (lines : list jsstring) : World :=
  mkWorld lines ∅ [] [].

(** The same in a process whose environment holds an API key. *)
Definition typing_with_env_key (lines : list jsstring) : World :=
  mkWorld lines {[js "OPENAI_API_KEY" := js "sk-env"]} [] [].

(** The call came back to its caller: it returned or it threw. *)
Definition finished {A} (o : Outcome A) : Prop :=
  match o with
  | Returned _ | Thrown _ => True
  | Exited _ | Pending => False
  end.

(** ** The runs of the prompt *)

(** What [promptForOpenAIConfig] prints before its first question, and the
    three questions of the session [rl]. *)
Definition greeting : list Event :=
  [ConsoleLog welcome_banner;
   ConsoleLog (js "Please configure your OpenAI API settings:" ++ [10])].

Definition ask_api_key (rl : nat) : Event :=
  Question rl (js "Enter your OpenAI API Key: ").

Definition ask_base_url (rl : nat) : Event :=
  Question rl
    (js "Enter OpenAI Base URL (press Enter for default: https://api.openai.com/v1): ").

Definition ask_model (rl : nat) : Event :=
  Question rl (js "Enter OpenAI Model (press Enter for default: gpt-4): ").

(** The error thrown for an empty API key. *)
Definition api_key_required : JsError :=
  Error (js "OpenAI API Key is required").

(** The five ways a call of [promptForOpenAIConfig] can go from a world
    [w], by the lines waiting on standard input.  The session of the call
    is the one at index [length (sessions w)]. *)
Inductive prompt_run (w : World) : Outcome FirstRunConfig -> World -> Prop :=
| run_awaits_api_key :
    stdin w = [] ->
    prompt_run w Pending
      (mkWorld [] (env w) (sessions w ++ [true])
         (trace w ++ greeting ++ [ask_api_key (length (sessions w))]))
| run_rejects_api_key a rest :
    stdin w = a :: rest ->
    trim a = [] ->
    prompt_run w (Thrown api_key_required)
      (mkWorld rest (env w) (sessions w ++ [false])
         (trace w ++ greeting ++ [ask_api_key (length (sessions w))]))
| run_awaits_base_url a c k :
    stdin w = [a] ->
    trim a = c :: k ->
    prompt_run w Pending
      (mkWorld [] (env w) (sessions w ++ [true])
         (trace w ++ greeting ++
            [ask_api_key (length (sessions w));
             ask_base_url (length (sessions w))]))
| run_awaits_model a1 a2 c k :
    stdin w = [a1; a2] ->
    trim a1 = c :: k ->
    prompt_run w Pending
      (mkWorld [] (env w) (sessions w ++ [true])
         (trace w ++ greeting ++
            [ask_api_key (length (sessions w));
             ask_base_url (length (sessions w));
             ask_model (length (sessions w))]))
| run_returns_config a1 a2 a3 rest c k :
    stdin w = a1 :: a2 :: a3 :: rest ->
    trim a1 = c :: k ->
    prompt_run w
      (Returned {| openaiApiKey := trim a1;
                   openaiBaseUrl := or_else (trim a2) default_base_url;
                   openaiModel := or_else (trim a3) default_model |})
      (mkWorld rest (env w) (sessions w ++ [false])
         (trace w ++ greeting ++
            [ask_api_key (length (sessions w));
             ask_base_url (length (sessions w));
             ask_model (length (sessions w))])).

(** ** The runs of the setup *)

(** The world [w] after the further events [t]. *)
Definition after_events (t : list Event) (w : World) : World :=
  mkWorld (stdin w) (env w) (sessions w) (trace w ++ t).

(** The store after the three writes of [handleFirstRunSetup]. *)
Definition saved_settings {S : Type} `{!SettingsStore S} (cfg : FirstRunConfig)
    (settings : S) : S :=
  setValue User (js "openaiModel") (openaiModel cfg)
    (setValue User (js "openaiBaseUrl") (openaiBaseUrl cfg)
       (setValue User (js "openaiApiKey") (openaiApiKey cfg) settings)).

(** What [handleFirstRunSetup] does once the prompt has returned [cfg]:
    three writes, then two lines on standard output. *)
Definition save_events {S : Type} `{!SettingsStore S} (cfg : FirstRunConfig)
    (settings : S) : list Event :=
  [SetValue User (js "openaiApiKey") (openaiApiKey cfg);
   SetValue User (js "openaiBaseUrl") (openaiBaseUrl cfg);
   SetValue User (js "openaiModel") (openaiModel cfg);
   ConsoleLog ([10; 0x2705] ++ js " Configuration saved successfully!");
   ConsoleLog (js "Settings saved to: "
               ++ user_path (saved_settings cfg settings) ++ [10])].

(** What [handleFirstRunSetup] does once an error [e] is caught. *)
Definition failure_events (e : JsError) : list Event :=
  [ConsoleError ([10; 0x274C] ++ js " Configuration setup failed:") e].

(** The queries of the three questions of the prompt, in the order of the
    source. *)
Definition prompt_queries : list jsstring :=
  [js "Enter your OpenAI API Key: ";
   js "Enter OpenAI Base URL (press Enter for default: https://api.openai.com/v1): ";
   js "Enter OpenAI Model (press Enter for default: gpt-4): "].

(** * Properties *)

Arguments js : simpl never.
Arguments trim : simpl never.

(** ** Trimming *)

Section Trim.
Implicit Types (s t : jsstring) (c : N).

Lemma trimStart_whitespace s : whitespace_only s -> trimStart s = [].
Proof.
  induction 1 as [|c s Hc _ IH]; simpl; [done|].
  by rewrite Hc.
Qed.

Lemma trimStart_nil_inv s : trimStart s = [] -> whitespace_only s.
Proof.
  induction s as [|c s IH]; simpl; [constructor|].
  destruct (isWhiteSpace c) eqn:Hc; [|done].
  intros Hs. constructor; [exact Hc|exact (IH Hs)].
Qed.

(** What [trimStart] removes is white space, and what it leaves does not
    start with white space. *)
Lemma trimStart_split s :
  exists l, s = l ++ trimStart s /\ whitespace_only l.
Proof.
  induction s as [|c s (l & Hl & Hws)]; simpl.
  - exists []. split; [done|constructor].
  - destruct (isWhiteSpace c) eqn:Hc.
    + exists (c :: l). split; [simpl; congruence|by constructor].
    + exists []. split; [done|constructor].
Qed.

Lemma trimStart_head s c t : trimStart s = c :: t -> isWhiteSpace c = false.
Proof.
  induction s as [|d s IH]; simpl; [done|].
  destruct (isWhiteSpace d) eqn:Hd; [done|].
  by intros [= -> _].
Qed.

Lemma trimStart_fixed c t :
  isWhiteSpace c = false -> trimStart (c :: t) = c :: t.
Proof. simpl. by intros ->. Qed.

Lemma whitespace_only_rev s : whitespace_only s -> whitespace_only (rev s).
Proof. unfold whitespace_only. rewrite !Forall_forall. intros Hs c Hc.
  apply Hs. by apply list_elem_of_In, in_rev, list_elem_of_In. Qed.

Lemma trimEnd_split s :
  exists r, s = trimEnd s ++ r /\ whitespace_only r.
Proof.
  unfold trimEnd. destruct (trimStart_split (rev s)) as (l & Hl & Hws).
  exists (rev l). split; [|by apply whitespace_only_rev].
  rewrite <- rev_app_distr, <- Hl. by rewrite rev_involutive.
Qed.

(** The trimmed string is the input without a prefix and a suffix of white
    space. *)
Lemma trim_split s :
  exists l r, s = l ++ trim s ++ r /\ whitespace_only l /\ whitespace_only r.
Proof.
  unfold trim.
  destruct (trimStart_split s) as (l & Hl & Hwl).
  destruct (trimEnd_split (trimStart s)) as (r & Hr & Hwr).
  exists l, r. split; [|done]. by rewrite <- Hr.
Qed.

Lemma trim_whitespace s : whitespace_only s -> trim s = [].
Proof.
  intros Hs. unfold trim. by rewrite (trimStart_whitespace s Hs).
Qed.

Lemma trim_nil_inv s : trim s = [] -> whitespace_only s.
Proof.
  intros Hs. destruct (trim_split s) as (l & r & Heq & Hl & Hr).
  rewrite Hs in Heq. rewrite Heq. unfold whitespace_only in *.
  rewrite Forall_app. done.
Qed.

(** The trimmed string does not start with white space. *)
Lemma trim_head s c t : trim s = c :: t -> isWhiteSpace c = false.
Proof.
  unfold trim, trimEnd. intros Hs.
  destruct (trimStart s) as [|d u] eqn:Hd; [done|].
  pose proof (trimStart_head _ _ _ Hd) as Hnd.
  destruct (trimStart_split (rev (d :: u))) as (l & Hl & Hwl).
  assert (Hrev : d :: u = rev (trimStart (rev (d :: u))) ++ rev l).
  { rewrite <- rev_app_distr, <- Hl. by rewrite rev_involutive. }
  rewrite Hs in Hrev. simpl in Hrev. by injection Hrev as -> _.
Qed.

(** The trimmed string does not end with white space. *)
Lemma trim_last s c t : trim s = t ++ [c] -> isWhiteSpace c = false.
Proof.
  unfold trim, trimEnd. intros Hs.
  apply (f_equal (@rev N)) in Hs.
  rewrite rev_involutive, rev_app_distr in Hs. simpl in Hs.
  by apply trimStart_head in Hs.
Qed.

Lemma trim_idempotent s : trim (trim s) = trim s.
Proof.
  destruct (trim s) as [|c t] eqn:Hs; [done|].
  pose proof (trim_head _ _ _ Hs) as Hc.
  unfold trim at 1. rewrite (trimStart_fixed c t Hc).
  unfold trimEnd.
  destruct (rev (c :: t)) as [|d u] eqn:Hr.
  { apply (f_equal (@rev N)) in Hr. by rewrite rev_involutive in Hr. }
  assert (Hlast : c :: t = rev u ++ [d]).
  { apply (f_equal (@rev N)) in Hr. by rewrite rev_involutive in Hr. }
  rewrite Hlast in Hs. apply trim_last in Hs.
  rewrite (trimStart_fixed d u Hs). by rewrite <- Hr, rev_involutive.
Qed.

Lemma truthy_trim_false s : truthy (trim s) = false <-> whitespace_only s.
Proof.
  split.
  - destruct (trim s) eqn:Hs; [|done]. intros _. by apply trim_nil_inv.
  - intros Hs. by rewrite trim_whitespace.
Qed.

Lemma or_else_truthy s t : s <> [] -> or_else s t = s.
Proof. by destruct s. Qed.
End Trim.

(** ** The prompt *)

Section Prompt.
Implicit Types (w : World) (a : jsstring).

Lemma close_last_session (l : list bool) :
  <[length l := false]> (l ++ [true]) = l ++ [false].
Proof. induction l as [|b l IH]; simpl; [done|]. by rewrite IH. Qed.

(** Bring the world of a finished run into the shape of [prompt_run]. *)
Ltac settle_run :=
  cbn; rewrite ?close_last_session, <- ?app_assoc.

Lemma promptForOpenAIConfig_run w :
  prompt_run w (promptForOpenAIConfig w).1 (promptForOpenAIConfig w).2.
Proof.
  destruct w as [lines e s t].
  destruct lines as [|a1 lines].
  { settle_run. by apply (run_awaits_api_key (mkWorld [] e s t)). }
  unfold promptForOpenAIConfig, try_finally, bind at 1 2 3. cbn.
  destruct (trim a1) as [|c k] eqn:Hk.
  { settle_run. by apply (run_rejects_api_key (mkWorld (a1 :: lines) e s t) a1). }
  destruct lines as [|a2 [|a3 rest]]; settle_run.
  - by apply (run_awaits_base_url (mkWorld [a1] e s t) a1 c k).
  - by apply (run_awaits_model (mkWorld [a1; a2] e s t) a1 a2 c k).
  - rewrite <- Hk.
    by apply (run_returns_config (mkWorld (a1 :: a2 :: a3 :: rest) e s t)
                a1 a2 a3 rest c k).
Qed.

(** [prompt_run] describes the function and nothing else. *)
Lemma prompt_run_deterministic w o1 w1 o2 w2 :
  prompt_run w o1 w1 -> prompt_run w o2 w2 -> o1 = o2 /\ w1 = w2.
Proof.
  intros H1 H2.
  destruct H1; destruct H2;
    repeat match goal with
           | Ha : stdin w = _, Hb : stdin w = _ |- _ => rewrite Ha in Hb
           end;
    simplify_eq; first [done | congruence].
Qed.

Lemma prompt_run_iff w o w' :
  promptForOpenAIConfig w = (o, w') <-> prompt_run w o w'.
Proof.
  pose proof (promptForOpenAIConfig_run w) as Hrun.
  split.
  - intros Heq. by rewrite Heq in Hrun.
  - intros Hr. destruct (prompt_run_deterministic _ _ _ _ _ Hrun Hr) as [<- <-].
    by destruct (promptForOpenAIConfig w).
Qed.
End Prompt.

(** ** Claims about the prompt *)

Section PromptClaims.
Implicit Types (w : World) (a : jsstring).

Lemma prompt_rejects w a rest :
  stdin w = a :: rest ->
  trim a = [] ->
  promptForOpenAIConfig w =
    (Thrown api_key_required,
     mkWorld rest (env w) (sessions w ++ [false])
       (trace w ++ greeting ++ [ask_api_key (length (sessions w))])).
Proof. intros Hin Ha. apply prompt_run_iff. by econstructor. Qed.

Lemma prompt_returns w a1 a2 a3 rest :
  stdin w = a1 :: a2 :: a3 :: rest ->
  trim a1 <> [] ->
  promptForOpenAIConfig w =
    (Returned {| openaiApiKey := trim a1;
                 openaiBaseUrl := or_else (trim a2) default_base_url;
                 openaiModel := or_else (trim a3) default_model |},
     mkWorld rest (env w) (sessions w ++ [false])
       (trace w ++ greeting ++
          [ask_api_key (length (sessions w));
           ask_base_url (length (sessions w));
           ask_model (length (sessions w))])).
Proof.
  intros Hin Ha. apply prompt_run_iff.
  destruct (trim a1) as [|c k] eqn:Hk; [done|]. rewrite <- Hk.
  by eapply run_returns_config.
Qed.

Lemma prompt_returned_inv w cfg w' :
  promptForOpenAIConfig w = (Returned cfg, w') ->
  exists a1 a2 a3 rest,
    stdin w = a1 :: a2 :: a3 :: rest /\ trim a1 <> [] /\
    cfg = {| openaiApiKey := trim a1;
             openaiBaseUrl := or_else (trim a2) default_base_url;
             openaiModel := or_else (trim a3) default_model |} /\
    w' = mkWorld rest (env w) (sessions w ++ [false])
           (trace w ++ greeting ++
              [ask_api_key (length (sessions w));
               ask_base_url (length (sessions w));
               ask_model (length (sessions w))]).
Proof.
  intros Hr. apply prompt_run_iff in Hr. inversion Hr; subst.
  exists a1, a2, a3, rest. repeat split; try done. congruence.
Qed.

Lemma prompt_thrown_inv w e w' :
  promptForOpenAIConfig w = (Thrown e, w') ->
  exists a rest,
    stdin w = a :: rest /\ trim a = [] /\ e = api_key_required /\
    w' = mkWorld rest (env w) (sessions w ++ [false])
           (trace w ++ greeting ++ [ask_api_key (length (sessions w))]).
Proof.
  intros Hr. apply prompt_run_iff in Hr. inversion Hr; subst.
  by exists a, rest.
Qed.

Lemma prompt_never_exits w code w' :
  promptForOpenAIConfig w <> (Exited code, w').
Proof. intros Hr. apply prompt_run_iff in Hr. inversion Hr. Qed.

(** C1, as amended: when the trimmed answer to the first question is
    empty, [promptForOpenAIConfig] throws an [Error] whose message is
    "OpenAI API Key is required" after asking that one question only and
    reading that one line only; and the [openaiApiKey] of every config it
    returns is non-empty. *)
Theorem promptForOpenAIConfig_requires_api_key :
  (forall w a rest,
     stdin w = a :: rest ->
     trim a = [] ->
     exists w',
       promptForOpenAIConfig w =
         (Thrown (Error (js "OpenAI API Key is required")), w') /\
       stdin w' = rest /\
       exists t, trace w' = trace w ++ t /\
                 questions t = [js "Enter your OpenAI API Key: "]) /\
  (forall w cfg w',
     promptForOpenAIConfig w = (Returned cfg, w') ->
     openaiApiKey cfg <> []).
Proof.
  split.
  - intros w a rest Hin Ha. eexists. split; [by eapply prompt_rejects|].
    split; [done|]. by eexists.
  - intros w cfg w' Hr.
    destruct (prompt_returned_inv _ _ _ Hr) as (a1 & a2 & a3 & rest & _ & Hk & -> & _).
    done.
Qed.

(** A blank first line, and the config of the answer "sk-test" followed by
    two empty lines. *)
Lemma promptForOpenAIConfig_requires_api_key_witness :
  (exists w',
     promptForOpenAIConfig (typing [js "   "; js "ignored"]) =
       (Thrown (Error (js "OpenAI API Key is required")), w') /\
     stdin w' = [js "ignored"] /\
     exists t, trace w' = trace (typing [js "   "; js "ignored"]) ++ t /\
               questions t = [js "Enter your OpenAI API Key: "]) /\
  openaiApiKey (mkFirstRunConfig (js "sk-test") default_base_url default_model)
    <> [].
Proof.
  split.
  - apply (proj1 promptForOpenAIConfig_requires_api_key
             (typing [js "   "; js "ignored"]) (js "   ") [js "ignored"]);
      reflexivity.
  - apply (proj2 promptForOpenAIConfig_requires_api_key
             (typing [js "sk-test"; []; []])
             (mkFirstRunConfig (js "sk-test") default_base_url default_model)
             (mkWorld [] ∅ [false]
                (greeting ++ [ask_api_key 0; ask_base_url 0; ask_model 0]))).
    reflexivity.
Defined.

(** C1, as stated, fails on the message: for an empty first answer the
    error carries "OpenAI API Key is required", not "API key is
    required". *)
Lemma promptForOpenAIConfig_error_message_counterexample :
  trim ([]) = [] /\
  (promptForOpenAIConfig (typing [[]])).1 =
    Thrown (Error (js "OpenAI API Key is required")) /\
  (promptForOpenAIConfig (typing [[]])).1 <>
    Thrown (Error (js "API key is required")).
Proof. repeat split. by vm_compute. Qed.

(** C3: an empty trimmed base-URL answer is replaced by
    https://api.openai.com/v1 and an empty trimmed model answer by gpt-4;
    the answer "sk-test" followed by two empty answers (written [[]]) gives
    the config with both defaults, and
    the answers "sk-test", "https://custom/v1", "custom-model" are
    returned as they are. *)
Theorem promptForOpenAIConfig_defaults :
  (forall w a1 a2 a3 rest,
     stdin w = a1 :: a2 :: a3 :: rest ->
     trim a1 <> [] ->
     exists cfg w',
       promptForOpenAIConfig w = (Returned cfg, w') /\
       openaiApiKey cfg = trim a1 /\
       (trim a2 = [] -> openaiBaseUrl cfg = js "https://api.openai.com/v1") /\
       (trim a2 <> [] -> openaiBaseUrl cfg = trim a2) /\
       (trim a3 = [] -> openaiModel cfg = js "gpt-4") /\
       (trim a3 <> [] -> openaiModel cfg = trim a3)) /\
  (forall w,
     stdin w = [js "sk-test"; []; []] ->
     (promptForOpenAIConfig w).1 =
       Returned {| openaiApiKey := js "sk-test";
                   openaiBaseUrl := js "https://api.openai.com/v1";
                   openaiModel := js "gpt-4" |}) /\
  (forall w,
     stdin w = [js "sk-test"; js "https://custom/v1"; js "custom-model"] ->
     (promptForOpenAIConfig w).1 =
       Returned {| openaiApiKey := js "sk-test";
                   openaiBaseUrl := js "https://custom/v1";
                   openaiModel := js "custom-model" |}).
Proof.
  split; [|split].
  - intros w a1 a2 a3 rest Hin Hk.
    do 2 eexists. split; [by eapply prompt_returns|]. cbn.
    split; [done|]. repeat split.
    + by intros ->.
    + apply or_else_truthy.
    + by intros ->.
    + apply or_else_truthy.
  - intros w Hin. by rewrite (prompt_returns w _ _ _ _ Hin).
  - intros w Hin. by rewrite (prompt_returns w _ _ _ _ Hin).
Qed.

(** Answers with white space around them, and the two runs of the claim. *)
Lemma promptForOpenAIConfig_defaults_witness :
  (exists cfg w',
     promptForOpenAIConfig (typing [js " sk-test"; js "  "; js "qwen3 "; js "more"]) =
       (Returned cfg, w') /\
     openaiApiKey cfg = js "sk-test" /\
     openaiBaseUrl cfg = js "https://api.openai.com/v1" /\
     openaiModel cfg = js "qwen3") /\
  (promptForOpenAIConfig (typing [js "sk-test"; []; []])).1 =
    Returned (mkFirstRunConfig (js "sk-test") (js "https://api.openai.com/v1")
                (js "gpt-4")) /\
  (promptForOpenAIConfig
     (typing [js "sk-test"; js "https://custom/v1"; js "custom-model"])).1 =
    Returned (mkFirstRunConfig (js "sk-test") (js "https://custom/v1")
                (js "custom-model")).
Proof.
  split; [|split].
  - destruct (proj1 promptForOpenAIConfig_defaults
                (typing [js " sk-test"; js "  "; js "qwen3 "; js "more"])
                (js " sk-test") (js "  ") (js "qwen3 ") [js "more"]
                eq_refl ltac:(by vm_compute))
      as (cfg & w' & Hrun & Hkey & Hurl & _ & _ & Hmodel).
    exists cfg, w'. split; [exact Hrun|]. split; [exact Hkey|].
    split; [exact (Hurl eq_refl)|]. apply Hmodel. by vm_compute.
  - apply (proj1 (proj2 promptForOpenAIConfig_defaults)). reflexivity.
  - apply (proj2 (proj2 promptForOpenAIConfig_defaults)). reflexivity.
Defined.

(** Whatever the body does, [try { body } finally { rl.close() }] comes
    back to its caller with the session [rl] not open. *)
Lemma try_finally_closes {A} (body : M A) (rl : nat) w o w' :
  try_finally body (rl_close rl) w = (o, w') ->
  finished o ->
  sessions w' !! rl <> Some true.
Proof.
  unfold try_finally. destruct (body w) as [[cfg|e|code|] w1]; cbn;
    intros [= <- <-]; try done; intros _; cbn.
  all: destruct (decide (rl < length (sessions w1))%nat) as [Hlt|Hge].
  all: first [ by rewrite list_lookup_insert_eq
             | rewrite lookup_ge_None_2; [done|rewrite length_insert; lia] ].
Qed.

(** C7: whenever [promptForOpenAIConfig] returns a config or throws, the
    readline session it created is closed, and no other session has
    changed. *)
Theorem promptForOpenAIConfig_releases_session w o w' :
  promptForOpenAIConfig w = (o, w') ->
  finished o ->
  sessions w' !! length (sessions w) = Some false /\
  sessions w' = sessions w ++ [false] /\
  (forall rl, sessions w' !! rl = Some true -> sessions w !! rl = Some true).
Proof.
  intros Hr Hfin. apply prompt_run_iff in Hr.
  assert (Hs : sessions w' = sessions w ++ [false]).
  { by destruct Hr. }
  rewrite Hs. split; [|split; [done|]].
  - rewrite lookup_app_r by lia. by rewrite Nat.sub_diag.
  - intros rl Hrl. destruct (decide (rl < length (sessions w))%nat) as [Hlt|Hge].
    + by rewrite lookup_app_l in Hrl.
    + rewrite lookup_app_r in Hrl by lia.
      destruct (rl - length (sessions w))%nat; simplify_eq/=.
Qed.

(** A run that returns and a run that throws, with two older sessions. *)
Lemma promptForOpenAIConfig_releases_session_witness :
  (sessions (promptForOpenAIConfig
               (mkWorld [js "sk-test"; []; []] ∅ [true; false] [])).2
     !! 2%nat = Some false) /\
  (sessions (promptForOpenAIConfig (mkWorld [js " "] ∅ [true; false] [])).2
     !! 2%nat = Some false).
Proof.
  split.
  - apply (promptForOpenAIConfig_releases_session
             (mkWorld [js "sk-test"; []; []] ∅ [true; false] [])
             (promptForOpenAIConfig
                (mkWorld [js "sk-test"; []; []] ∅ [true; false] [])).1
             (promptForOpenAIConfig
                (mkWorld [js "sk-test"; []; []] ∅ [true; false] [])).2);
      [reflexivity | exact I].
  - apply (promptForOpenAIConfig_releases_session
             (mkWorld [js " "] ∅ [true; false] [])
             (promptForOpenAIConfig (mkWorld [js " "] ∅ [true; false] [])).1
             (promptForOpenAIConfig (mkWorld [js " "] ∅ [true; false] [])).2);
      [reflexivity | exact I].
Defined.

Lemma askQuestion_answer rl q w a rest :
  stdin w = a :: rest ->
  askQuestion rl q w =
    (Returned (trim a),
     mkWorld rest (env w) (sessions w) (trace w ++ [Question rl q])).
Proof.
  intros Hin. unfold askQuestion, rl_question, bind, emit. cbn.
  by rewrite Hin.
Qed.

(** C8: every answer is trimmed before any use.  [askQuestion] hands
    back the trimmed line; the emptiness check of the API key is made on
    the trimmed line; the fields of the returned config are the trimmed
    lines (or, for the trimmed lines that are empty, the defaults); the
    line "  sk-test  " gives "sk-test"; and trimming removes exactly a
    prefix and a suffix of white space. *)
Theorem answers_are_trimmed :
  (forall rl q w a rest,
     stdin w = a :: rest ->
     (askQuestion rl q w).1 = Returned (trim a)) /\
  (forall w a rest,
     stdin w = a :: rest ->
     (trim a = [] <-> (promptForOpenAIConfig w).1 = Thrown api_key_required)) /\
  (forall w a1 a2 a3 rest cfg w',
     stdin w = a1 :: a2 :: a3 :: rest ->
     promptForOpenAIConfig w = (Returned cfg, w') ->
     openaiApiKey cfg = trim a1 /\
     openaiBaseUrl cfg = or_else (trim a2) (js "https://api.openai.com/v1") /\
     openaiModel cfg = or_else (trim a3) (js "gpt-4")) /\
  (forall w rest,
     stdin w = js "  sk-test  " :: rest ->
     (askQuestion (length (sessions w)) (js "Enter your OpenAI API Key: ") w).1 =
       Returned (js "sk-test")) /\
  (forall a,
     (exists l r,
        a = l ++ trim a ++ r /\ whitespace_only l /\ whitespace_only r) /\
     (forall c k, trim a = c :: k -> isWhiteSpace c = false) /\
     (forall c k, trim a = k ++ [c] -> isWhiteSpace c = false)).
Proof.
  split; [|split; [|split; [|split]]].
  - intros rl q w a rest Hin. by rewrite (askQuestion_answer _ _ _ _ _ Hin).
  - intros w a rest Hin. split.
    + intros Ha. by rewrite (prompt_rejects w a rest Hin Ha).
    + intros Hthrown.
      destruct (promptForOpenAIConfig w) as [o w'] eqn:Hr. simpl in Hthrown.
      subst o. destruct (prompt_thrown_inv _ _ _ Hr) as (b & rest' & Hin' & Hb & _).
      congruence.
  - intros w a1 a2 a3 rest cfg w' Hin Hr.
    destruct (prompt_returned_inv _ _ _ Hr) as (b1 & b2 & b3 & rest' & Hin' & _ & -> & _).
    rewrite Hin in Hin'. by simplify_eq.
  - intros w rest Hin. by rewrite (askQuestion_answer _ _ _ _ _ Hin).
  - intros a. split; [apply trim_split|]. split; [apply trim_head|apply trim_last].
Qed.

(** The line "  sk-test  ", a line of TAB, SPACE and NO-BREAK SPACE, and a padded URL. *)
Lemma answers_are_trimmed_witness :
  (askQuestion 0 (js "Enter your OpenAI API Key: ")
     (typing [js "  sk-test  "])).1 = Returned (js "sk-test") /\
  (promptForOpenAIConfig (typing [[9; 32; 160]])).1 = Thrown api_key_required /\
  openaiBaseUrl
    (mkFirstRunConfig (js "sk-test") (js "https://custom/v1") (js "gpt-4")) =
    or_else (trim (js " https://custom/v1 ")) (js "https://api.openai.com/v1").
Proof.
  split; [|split].
  - apply (proj1 (proj2 (proj2 (proj2 answers_are_trimmed)))
             (typing [js "  sk-test  "]) []).
    reflexivity.
  - apply (proj1 (proj2 answers_are_trimmed) (typing [[9; 32; 160]])
             [9; 32; 160] []); reflexivity.
  - apply (proj1 (proj2 (proj2 answers_are_trimmed))
             (typing [js "  sk-test "; js " https://custom/v1 "; []])
             (js "  sk-test ") (js " https://custom/v1 ") ([]) []
             (mkFirstRunConfig (js "sk-test") (js "https://custom/v1") (js "gpt-4"))
             (mkWorld [] ∅ [false]
                (greeting ++ [ask_api_key 0; ask_base_url 0; ask_model 0])));
      reflexivity.
Defined.

Lemma trim_nil : trim [] = [].
Proof. done. Qed.

(** A run of the prompt sees its answers through [trim] only. *)
Ltac same_run Ha :=
  unfold promptForOpenAIConfig, try_finally, askQuestion, rl_question, bind;
  cbn; rewrite ?(trim_whitespace _ Ha), ?trim_nil;
  try reflexivity.

(** C9: an answer of white space only is treated exactly like an empty
    answer.  Its trimmed form is the empty string; as the API key it makes
    the prompt throw; as the base URL or the model it gives the default;
    and as the answer to any of the three questions it gives the very run
    that the empty answer gives. *)
Theorem whitespace_answer_is_empty_answer a :
  whitespace_only a ->
  trim a = trim [] /\
  (forall w rest,
     stdin w = a :: rest ->
     (promptForOpenAIConfig w).1 = Thrown (Error (js "OpenAI API Key is required"))) /\
  (forall w a1 a3 rest,
     stdin w = a1 :: a :: a3 :: rest ->
     trim a1 <> [] ->
     exists cfg w',
       promptForOpenAIConfig w = (Returned cfg, w') /\
       openaiBaseUrl cfg = js "https://api.openai.com/v1") /\
  (forall w a1 a2 rest,
     stdin w = a1 :: a2 :: a :: rest ->
     trim a1 <> [] ->
     exists cfg w',
       promptForOpenAIConfig w = (Returned cfg, w') /\
       openaiModel cfg = js "gpt-4") /\
  (forall rest e s t,
     promptForOpenAIConfig (mkWorld (a :: rest) e s t) =
     promptForOpenAIConfig (mkWorld ([] :: rest) e s t)) /\
  (forall a1 rest e s t,
     trim a1 <> [] ->
     promptForOpenAIConfig (mkWorld (a1 :: a :: rest) e s t) =
     promptForOpenAIConfig (mkWorld (a1 :: [] :: rest) e s t)) /\
  (forall a1 a2 rest e s t,
     trim a1 <> [] ->
     promptForOpenAIConfig (mkWorld (a1 :: a2 :: a :: rest) e s t) =
     promptForOpenAIConfig (mkWorld (a1 :: a2 :: [] :: rest) e s t)).
Proof.
  intros Ha. pose proof (trim_whitespace a Ha) as Hnil.
  split; [by rewrite Hnil|].
  split; [intros w rest Hin; by rewrite (prompt_rejects w a rest Hin Hnil)|].
  split.
  { intros w a1 a3 rest Hin Hk. do 2 eexists.
    split; [by eapply prompt_returns|]. cbn. by rewrite Hnil. }
  split.
  { intros w a1 a2 rest Hin Hk. do 2 eexists.
    split; [by eapply prompt_returns|]. cbn. by rewrite Hnil. }
  split; [|split].
  - intros rest e s t. same_run Ha.
  - intros a1 rest e s t Hk. same_run Ha.
    destruct (trim a1); cbn; [done|]. by rewrite Hnil, trim_nil.
  - intros a1 a2 rest e s t Hk. same_run Ha.
    destruct (trim a1); cbn; [done|]. by rewrite Hnil, trim_nil.
Qed.

(** The answer SPACE, TAB, IDEOGRAPHIC SPACE in each of the three places. *)
Lemma whitespace_answer_is_empty_answer_witness :
  trim [32; 9; 12288] = trim [] /\
  (promptForOpenAIConfig (typing [[32; 9; 12288]; js "x"])).1 =
    Thrown (Error (js "OpenAI API Key is required")) /\
  (exists cfg w',
     promptForOpenAIConfig (typing [js "sk-test"; [32; 9; 12288]; js "m"]) =
       (Returned cfg, w') /\
     openaiBaseUrl cfg = js "https://api.openai.com/v1") /\
  (exists cfg w',
     promptForOpenAIConfig (typing [js "sk-test"; js "u"; [32; 9; 12288]]) =
       (Returned cfg, w') /\
     openaiModel cfg = js "gpt-4").
Proof.
  assert (Hws : whitespace_only [32; 9; 12288]).
  { repeat constructor. }
  destruct (whitespace_answer_is_empty_answer _ Hws)
    as (Htrim & Hkey & Hurl & Hmodel & _).
  split; [exact Htrim|]. split; [|split].
  - apply (Hkey (typing [[32; 9; 12288]; js "x"]) [js "x"]). reflexivity.
  - apply (Hurl (typing [js "sk-test"; [32; 9; 12288]; js "m"])
             (js "sk-test") (js "m") []); [reflexivity|by vm_compute].
  - apply (Hmodel (typing [js "sk-test"; js "u"; [32; 9; 12288]])
             (js "sk-test") (js "u") []); [reflexivity|by vm_compute].
Defined.
End PromptClaims.

(** ** The setup *)

Lemma truthy_opt_false o : truthy_opt o = false <-> absent_or_empty o.
Proof.
  unfold absent_or_empty. destruct o as [[|c s]|]; simpl; split; intros Hx;
    first [done | by left | by right | by destruct Hx].
Qed.

Lemma truthy_opt_true o : truthy_opt o = true <-> present o.
Proof.
  unfold present. destruct o as [[|c s]|]; simpl; split; intros Hx;
    first [done | by exists c, s | by destruct Hx as (? & ? & ?)].
Qed.

Arguments promptForOpenAIConfig : simpl never.

Section SetupClaims.
Context {S : Type} `{!SettingsStore S}.
Implicit Types (settings : S) (w : World).

Lemma isFirstRun_eq settings w :
  isFirstRun settings w =
    (Returned (negb (truthy_opt (user_openaiApiKey settings))
               && negb (truthy_opt (env w !! js "OPENAI_API_KEY"))), w).
Proof. done. Qed.

(** The whole of [handleFirstRunSetup], by what the prompt does. *)
Lemma handleFirstRunSetup_eq settings w :
  handleFirstRunSetup settings w =
    match (isFirstRun settings w).1 with
    | Returned true =>
        match promptForOpenAIConfig w with
        | (Returned cfg, w1) =>
            (Returned (saved_settings cfg settings),
             after_events (save_events cfg settings) w1)
        | (Thrown e, w1) => (Exited 1%Z, after_events (failure_events e) w1)
        | (Exited code, w1) => (Exited code, w1)
        | (Pending, w1) => (Pending, w1)
        end
    | _ => (Returned settings, w)
    end.
Proof.
  unfold handleFirstRunSetup. rewrite isFirstRun_eq. unfold bind at 1. cbn.
  destruct (negb _ && negb _); cbn; [|done].
  unfold try_catch, saveFirstRunConfig. unfold bind at 1.
  destruct (promptForOpenAIConfig w) as [[cfg|e|code|] w1]; cbn; try done.
  unfold after_events, save_events. cbn. by rewrite <- !app_assoc.
Qed.

Lemma isFirstRun_true settings w :
  (isFirstRun settings w).1 = Returned true <->
  absent_or_empty (user_openaiApiKey settings) /\
  absent_or_empty (env w !! js "OPENAI_API_KEY").
Proof.
  rewrite isFirstRun_eq, <- !truthy_opt_false. cbn.
  destruct (truthy_opt (user_openaiApiKey settings)),
    (truthy_opt (env w !! js "OPENAI_API_KEY")); cbn; split;
    first [done | by intros [? ?]].
Qed.

Lemma isFirstRun_false settings w :
  (isFirstRun settings w).1 = Returned false <->
  present (user_openaiApiKey settings) \/
  present (env w !! js "OPENAI_API_KEY").
Proof.
  rewrite isFirstRun_eq, <- !truthy_opt_true. cbn.
  destruct (truthy_opt (user_openaiApiKey settings)),
    (truthy_opt (env w !! js "OPENAI_API_KEY")); cbn; split;
    first [done | by left | by right | by intros [?|?]].
Qed.

(** C2, as amended: [isFirstRun(settings)] returns true if and only if
    the user-scope [openaiApiKey] of the store and the environment
    variable [OPENAI_API_KEY] are both absent or empty, and false
    whenever either holds a non-empty string; it changes nothing.  The
    environment variable is read from the process, it is not an
    argument. *)
Theorem isFirstRun_iff_no_key settings w :
  exists b,
    isFirstRun settings w = (Returned b, w) /\
    (b = true <->
       absent_or_empty (user_openaiApiKey settings) /\
       absent_or_empty (env w !! js "OPENAI_API_KEY")) /\
    (b = false <->
       present (user_openaiApiKey settings) \/
       present (env w !! js "OPENAI_API_KEY")).
Proof.
  eexists. split; [apply isFirstRun_eq|]. split.
  - rewrite <- isFirstRun_true, isFirstRun_eq. cbn.
    split; [by intros ->|by intros [= ->]].
  - rewrite <- isFirstRun_false, isFirstRun_eq. cbn.
    split; [by intros ->|by intros [= ->]].
Qed.

(** C6: when [isFirstRun] is false, that is when the store or the
    environment holds a non-empty key, [handleFirstRunSetup] returns at
    once: the store is as it was and so is the world (no line read, no
    question, no output, no call of [setValue], no session). *)
Theorem handleFirstRunSetup_skips settings w :
  present (user_openaiApiKey settings) \/
  present (env w !! js "OPENAI_API_KEY") ->
  (isFirstRun settings w).1 = Returned false /\
  handleFirstRunSetup settings w = (Returned settings, w).
Proof.
  intros Hkey. apply isFirstRun_false in Hkey. split; [done|].
  by rewrite handleFirstRunSetup_eq, Hkey.
Qed.

(** C4: when the setup succeeds, [handleFirstRunSetup] calls [setValue]
    exactly three times, for [openaiApiKey], [openaiBaseUrl] and
    [openaiModel] of the user scope with the fields of the config, and
    then prints the success message, whose second line contains the path
    of the user settings file. *)
Theorem handleFirstRunSetup_saves settings w cfg w1 :
  (isFirstRun settings w).1 = Returned true ->
  promptForOpenAIConfig w = (Returned cfg, w1) ->
  exists t_prompt path_line,
    trace w1 = trace w ++ t_prompt /\
    handleFirstRunSetup settings w =
      (Returned (saved_settings cfg settings),
       after_events
         [SetValue User (js "openaiApiKey") (openaiApiKey cfg);
          SetValue User (js "openaiBaseUrl") (openaiBaseUrl cfg);
          SetValue User (js "openaiModel") (openaiModel cfg);
          ConsoleLog ([10; 0x2705] ++ js " Configuration saved successfully!");
          ConsoleLog path_line] w1) /\
    includes (user_path (saved_settings cfg settings)) path_line /\
    setter_calls (t_prompt ++ save_events cfg settings) =
      [(User, js "openaiApiKey", openaiApiKey cfg);
       (User, js "openaiBaseUrl", openaiBaseUrl cfg);
       (User, js "openaiModel", openaiModel cfg)].
Proof.
  intros Hfirst Hprompt.
  destruct (prompt_returned_inv _ _ _ Hprompt)
    as (a1 & a2 & a3 & rest & _ & _ & _ & Hw1).
  eexists _, _. split; [by rewrite Hw1|].
  split; [by rewrite handleFirstRunSetup_eq, Hfirst, Hprompt|].
  split; [|done].
  by exists (js "Settings saved to: "), [10].
Qed.

Lemma saveFirstRunConfig_thrown settings w e w1 :
  saveFirstRunConfig settings w = (Thrown e, w1) ->
  promptForOpenAIConfig w = (Thrown e, w1).
Proof.
  unfold saveFirstRunConfig. unfold bind at 1.
  destruct (promptForOpenAIConfig w) as [[cfg|e'|code|] w0]; cbn;
    intros Heq; by simplify_eq.
Qed.

(** C5: when an error is thrown during the setup, [handleFirstRunSetup]
    makes no call of [setValue], writes one message with the error to
    standard error, and ends the process with status 1; the error of the
    empty API key is such an error. *)
Theorem handleFirstRunSetup_fails settings w :
  (isFirstRun settings w).1 = Returned true ->
  (forall e w1,
     saveFirstRunConfig settings w = (Thrown e, w1) ->
     exists t_flow,
       trace w1 = trace w ++ t_flow /\
       handleFirstRunSetup settings w =
         (Exited 1%Z,
          after_events
            [ConsoleError ([10; 0x274C] ++ js " Configuration setup failed:") e]
            w1) /\
       setter_calls (t_flow ++ failure_events e) = [] /\
       stderr_output (t_flow ++ failure_events e) =
         [([10; 0x274C] ++ js " Configuration setup failed:", e)]) /\
  (forall a rest,
     stdin w = a :: rest ->
     trim a = [] ->
     exists w1, saveFirstRunConfig settings w = (Thrown api_key_required, w1)) /\
  (1 <> 0)%Z.
Proof.
  intros Hfirst. split; [|split; [|done]].
  - intros e w1 Hsave. apply saveFirstRunConfig_thrown in Hsave.
    destruct (prompt_thrown_inv _ _ _ Hsave) as (a & rest & Hin & Ha & -> & Hw1).
    eexists. split; [by rewrite Hw1|].
    split; [by rewrite handleFirstRunSetup_eq, Hfirst, Hsave|done].
  - intros a rest Hin Ha. eexists.
    unfold saveFirstRunConfig. unfold bind at 1.
    by rewrite (prompt_rejects w a rest Hin Ha).
Qed.

Lemma elem_of_setter_calls (t : list Event) scope key value :
  SetValue scope key value ∈ t <-> (scope, key, value) ∈ setter_calls t.
Proof.
  induction t as [|ev t IH]; simpl.
  - by rewrite !elem_of_nil.
  - destruct ev; rewrite elem_of_cons, ?elem_of_cons, IH.
    1-3: split; [intros [Heq|Hin]; [discriminate|done] | by right].
    split; (intros [Heq|Hin]; [left; congruence | by right]).
Qed.

(** C10: every call of [setValue] that [handleFirstRunSetup] makes is for
    the user scope and for one of the keys [openaiApiKey],
    [openaiBaseUrl], [openaiModel]; when it makes any, it makes the
    three, in this order. *)
Theorem handleFirstRunSetup_writes settings w :
  exists t,
    trace (handleFirstRunSetup settings w).2 = trace w ++ t /\
    (setter_calls t = [] \/
     exists cfg,
       setter_calls t =
         [(User, js "openaiApiKey", openaiApiKey cfg);
          (User, js "openaiBaseUrl", openaiBaseUrl cfg);
          (User, js "openaiModel", openaiModel cfg)]) /\
    (forall scope key value,
       SetValue scope key value ∈ t ->
       scope = User /\
       key ∈ [js "openaiApiKey"; js "openaiBaseUrl"; js "openaiModel"]).
Proof.
  assert (Hrun : exists t,
    trace (handleFirstRunSetup settings w).2 = trace w ++ t /\
    (setter_calls t = [] \/
     exists cfg,
       setter_calls t =
         [(User, js "openaiApiKey", openaiApiKey cfg);
          (User, js "openaiBaseUrl", openaiBaseUrl cfg);
          (User, js "openaiModel", openaiModel cfg)])).
  { rewrite handleFirstRunSetup_eq.
    destruct (isFirstRun settings w).1 as [[|]|?|?|];
      try (exists []; split; [by rewrite app_nil_r|by left]).
    pose proof (promptForOpenAIConfig_run w) as Hr.
    destruct (promptForOpenAIConfig w) as [o w1]. cbn in Hr.
    destruct Hr; cbn; rewrite <- ?app_assoc;
      (eexists; split; [reflexivity|]);
      first [by left | right; by eexists]. }
  destruct Hrun as (t & Ht & Hcalls). exists t. split; [done|]. split; [done|].
  intros scope key value Hin. apply elem_of_setter_calls in Hin.
  destruct Hcalls as [Hnone|[cfg Hthree]].
  - rewrite Hnone in Hin. by apply elem_of_nil in Hin.
  - rewrite Hthree, !elem_of_cons, elem_of_nil in Hin.
    destruct Hin as [Heq|[Heq|[Heq|[]]]]; injection Heq as -> -> ->;
      (split; [done|]); rewrite !elem_of_cons; auto.
Qed.
End SetupClaims.

(** ** The setup on the store in memory *)

Section MemoryStoreRuns.
Lemma fresh_store_first_run lines :
  (isFirstRun fresh_store (typing lines)).1 = Returned true.
Proof. apply isFirstRun_true. split; left; apply lookup_empty. Qed.

Lemma env_key_not_first_run lines :
  (isFirstRun fresh_store (typing_with_env_key lines)).1 = Returned false.
Proof.
  apply isFirstRun_false. right. exists 115, (js "k-env").
  apply lookup_singleton_eq.
Qed.

(** C2, as stated, fails on its last part: the environment key is not an
    input of [isFirstRun].  For one and the same store the answer is true
    in a process without [OPENAI_API_KEY] and false in a process with it,
    so no function of the argument alone gives the answer. *)
Lemma isFirstRun_reads_environment_counterexample :
  (isFirstRun fresh_store (typing [])).1 = Returned true /\
  (isFirstRun fresh_store (typing_with_env_key [])).1 = Returned false /\
  ~ (exists shouldRun : MemoryStore -> bool,
       forall settings w,
         (isFirstRun settings w).1 = Returned (shouldRun settings)).
Proof.
  pose proof (fresh_store_first_run []) as Htrue.
  pose proof (env_key_not_first_run []) as Hfalse.
  split; [done|]. split; [done|].
  intros (shouldRun & Hfun).
  rewrite (Hfun fresh_store) in Htrue. rewrite (Hfun fresh_store) in Hfalse.
  congruence.
Qed.

(** A process with [OPENAI_API_KEY] set: the waiting line is never read. *)
Lemma handleFirstRunSetup_skips_witness :
  (isFirstRun fresh_store (typing_with_env_key [js "never read"])).1 =
    Returned false /\
  handleFirstRunSetup fresh_store (typing_with_env_key [js "never read"]) =
    (Returned fresh_store, typing_with_env_key [js "never read"]).
Proof.
  apply (handleFirstRunSetup_skips fresh_store
           (typing_with_env_key [js "never read"])).
  right. exists 115, (js "k-env"). vm_compute. reflexivity.
Defined.

(** A first run with the answers "sk-test", an empty line, " qwen3-coder ". *)
Lemma handleFirstRunSetup_saves_witness :
  let w := typing [js "sk-test"; []; js " qwen3-coder "] in
  let cfg := mkFirstRunConfig (js "sk-test") (js "https://api.openai.com/v1")
               (js "qwen3-coder") in
  let w1 := mkWorld [] ∅ [false]
              (greeting ++ [ask_api_key 0; ask_base_url 0; ask_model 0]) in
  exists t_prompt path_line,
    trace w1 = trace w ++ t_prompt /\
    handleFirstRunSetup fresh_store w =
      (Returned (saved_settings cfg fresh_store),
       after_events
         [SetValue User (js "openaiApiKey") (js "sk-test");
          SetValue User (js "openaiBaseUrl") (js "https://api.openai.com/v1");
          SetValue User (js "openaiModel") (js "qwen3-coder");
          ConsoleLog ([10; 0x2705] ++ js " Configuration saved successfully!");
          ConsoleLog path_line] w1) /\
    includes (js "~/.qwen/settings.json") path_line /\
    setter_calls (t_prompt ++ save_events cfg fresh_store) =
      [(User, js "openaiApiKey", js "sk-test");
       (User, js "openaiBaseUrl", js "https://api.openai.com/v1");
       (User, js "openaiModel", js "qwen3-coder")].
Proof.
  intros w cfg w1.
  assert (Hfirst : (isFirstRun fresh_store w).1 = Returned true).
  { vm_compute. reflexivity. }
  assert (Hprompt : promptForOpenAIConfig w = (Returned cfg, w1)).
  { vm_compute. reflexivity. }
  exact (handleFirstRunSetup_saves fresh_store w cfg w1 Hfirst Hprompt).
Defined.

(** A first run whose first answer is blank. *)
Lemma handleFirstRunSetup_fails_witness :
  let w := typing [js "  "; js "never read"] in
  let w1 := mkWorld [js "never read"] ∅ [false]
              (greeting ++ [ask_api_key 0]) in
  exists t_flow,
    trace w1 = trace w ++ t_flow /\
    handleFirstRunSetup fresh_store w =
      (Exited 1%Z,
       after_events
         [ConsoleError ([10; 0x274C] ++ js " Configuration setup failed:")
            (Error (js "OpenAI API Key is required"))] w1) /\
    setter_calls (t_flow ++ failure_events api_key_required) = [] /\
    stderr_output (t_flow ++ failure_events api_key_required) =
      [([10; 0x274C] ++ js " Configuration setup failed:",
        Error (js "OpenAI API Key is required"))].
Proof.
  intros w w1.
  assert (Hfirst : (isFirstRun fresh_store w).1 = Returned true).
  { vm_compute. reflexivity. }
  assert (Hsave : saveFirstRunConfig fresh_store w = (Thrown api_key_required, w1)).
  { vm_compute. reflexivity. }
  exact (proj1 (handleFirstRunSetup_fails fresh_store w Hfirst)
           api_key_required w1 Hsave).
Defined.

(** The fresh store in a process with [OPENAI_API_KEY] set. *)
Lemma isFirstRun_iff_no_key_witness :
  exists b,
    isFirstRun fresh_store (typing_with_env_key []) =
      (Returned b, typing_with_env_key []) /\
    (b = true <->
       absent_or_empty (user_openaiApiKey fresh_store) /\
       absent_or_empty
         (env (typing_with_env_key []) !! js "OPENAI_API_KEY")) /\
    (b = false <->
       present (user_openaiApiKey fresh_store) \/
       present (env (typing_with_env_key []) !! js "OPENAI_API_KEY")).
Proof. exact (isFirstRun_iff_no_key fresh_store (typing_with_env_key [])). Defined.

(** A first run with the answer "sk-test" and two empty lines. *)
Lemma handleFirstRunSetup_writes_witness :
  exists t,
    trace (handleFirstRunSetup fresh_store
             (typing [js "sk-test"; []; []])).2 =
      trace (typing [js "sk-test"; []; []]) ++ t /\
    (setter_calls t = [] \/
     exists cfg,
       setter_calls t =
         [(User, js "openaiApiKey", openaiApiKey cfg);
          (User, js "openaiBaseUrl", openaiBaseUrl cfg);
          (User, js "openaiModel", openaiModel cfg)]) /\
    (forall scope key value,
       SetValue scope key value ∈ t ->
       scope = User /\
       key ∈ [js "openaiApiKey"; js "openaiBaseUrl"; js "openaiModel"]).
Proof.
  exact (handleFirstRunSetup_writes fresh_store
           (typing [js "sk-test"; []; []])).
Defined.
End MemoryStoreRuns.

(** * Further properties *)

(** ** Trimming, exactly *)

Section TrimExact.
Implicit Types (s l m r : jsstring).

Lemma trimStart_app_whitespace l s :
  whitespace_only l -> trimStart (l ++ s) = trimStart s.
Proof.
  induction 1 as [|c l Hc _ IH]; simpl; [done|]. by rewrite Hc.
Qed.

Lemma trimStart_keeps m c :
  head m = Some c -> isWhiteSpace c = false -> trimStart m = m.
Proof. destruct m as [|c' k]; [done|]. intros [= ->] Hc. simpl. by rewrite Hc. Qed.

(** Between a prefix and a suffix of white space, a text that starts and
    ends with other characters is what [trim] gives back. *)
Lemma trim_exact l m r c d :
  whitespace_only l ->
  whitespace_only r ->
  head m = Some c -> isWhiteSpace c = false ->
  last m = Some d -> isWhiteSpace d = false ->
  trim (l ++ m ++ r) = m.
Proof.
  intros Hl Hr Hc Hcw Hd Hdw. unfold trim, trimEnd.
  rewrite (trimStart_app_whitespace l _ Hl).
  rewrite (trimStart_keeps (m ++ r) c); [|by destruct m|done].
  rewrite rev_app_distr.
  rewrite (trimStart_app_whitespace (rev r) _ (whitespace_only_rev r Hr)).
  apply last_Some in Hd as [k ->].
  rewrite rev_app_distr. simpl. rewrite Hdw. simpl.
  by rewrite rev_involutive.
Qed.

Lemma trim_default_base_url : trim default_base_url = default_base_url.
Proof. reflexivity. Qed.

Lemma trim_default_model : trim default_model = default_model.
Proof. reflexivity. Qed.

(** A field built by [x || default] from a trimmed answer is non-empty and
    trimmed when the default is. *)
Lemma or_else_trimmed a d :
  d <> [] -> trim d = d ->
  or_else (trim a) d <> [] /\ trim (or_else (trim a) d) = or_else (trim a) d.
Proof.
  intros Hd Htd. unfold or_else.
  destruct (trim a) as [|c k] eqn:Ha; simpl; [done|].
  split; [done|]. rewrite <- Ha. apply trim_idempotent.
Qed.
End TrimExact.

(** ** More about the prompt *)

Section PromptMore.
Implicit Types (w : World) (a : jsstring).

(** Case analysis on a run of the prompt. *)
Ltac prompt_cases w :=
  let Hr := fresh "Hr" in
  pose proof (promptForOpenAIConfig_run w) as Hr;
  destruct (promptForOpenAIConfig w) as [? ?]; cbn in Hr |- *;
  destruct Hr.

(** X1: every field of a config that [promptForOpenAIConfig] returns is
    non-empty and carries no white space at either end, the two fields
    with defaults included. *)
Theorem returned_config_is_trimmed w cfg w' :
  promptForOpenAIConfig w = (Returned cfg, w') ->
  (openaiApiKey cfg <> [] /\ trim (openaiApiKey cfg) = openaiApiKey cfg) /\
  (openaiBaseUrl cfg <> [] /\ trim (openaiBaseUrl cfg) = openaiBaseUrl cfg) /\
  (openaiModel cfg <> [] /\ trim (openaiModel cfg) = openaiModel cfg).
Proof.
  intros Hr.
  destruct (prompt_returned_inv _ _ _ Hr)
    as (a1 & a2 & a3 & rest & _ & Hk & -> & _). cbn.
  split; [split; [done|apply trim_idempotent]|].
  split; by apply or_else_trimmed.
Qed.

(** Leading and trailing white space of all three answers is gone. *)
Lemma returned_config_is_trimmed_witness :
  let cfg := mkFirstRunConfig (js "sk-test") default_base_url (js "qwen3") in
  (openaiApiKey cfg <> [] /\ trim (openaiApiKey cfg) = openaiApiKey cfg) /\
  (openaiBaseUrl cfg <> [] /\ trim (openaiBaseUrl cfg) = openaiBaseUrl cfg) /\
  (openaiModel cfg <> [] /\ trim (openaiModel cfg) = openaiModel cfg).
Proof.
  intros cfg.
  assert (Hrun : promptForOpenAIConfig
                   (typing [js " sk-test "; [9; 32]; js "qwen3  "]) =
                 (Returned cfg,
                  mkWorld [] ∅ [false]
                    (greeting ++ [ask_api_key 0; ask_base_url 0; ask_model 0]))).
  { vm_compute. reflexivity. }
  exact (returned_config_is_trimmed _ _ _ Hrun).
Defined.




(** X4: what [promptForOpenAIConfig] adds to the trace is the two lines of
    the greeting and then one to three questions, all on the session it
    created and in the order API key, base URL, model.  A run that returns
    has asked the three, a run that throws the first only. *)
Theorem promptForOpenAIConfig_question_order w :
  exists qs,
    trace (promptForOpenAIConfig w).2 =
      trace w ++ greeting ++ map (Question (length (sessions w))) qs /\
    qs <> [] /\
    qs `prefix_of` prompt_queries /\
    ((exists cfg, (promptForOpenAIConfig w).1 = Returned cfg) ->
     qs = prompt_queries) /\
    ((exists e, (promptForOpenAIConfig w).1 = Thrown e) ->
     qs = take 1 prompt_queries).
Proof.
  prompt_cases w.
  1-2: exists (take 1 prompt_queries).
  3: exists (take 2 prompt_queries).
  4-5: exists prompt_queries.
  all: split; [done|]; split; [done|]; split;
    [ first [done | by eexists [_] | by eexists [_; _]] |].
  all: split; intros [x Hx]; done.
Qed.

(** X9: the answers that a returned config holds, typed again, give the
    same config: the prompt does not change a value it has produced. *)
Theorem promptForOpenAIConfig_fixed_point w cfg w' :
  promptForOpenAIConfig w = (Returned cfg, w') ->
  forall rest e s t,
    (promptForOpenAIConfig
       (mkWorld (openaiApiKey cfg :: openaiBaseUrl cfg :: openaiModel cfg :: rest)
          e s t)).1 = Returned cfg.
Proof.
  intros Hr rest e s t.
  destruct (prompt_returned_inv _ _ _ Hr)
    as (a1 & a2 & a3 & rest' & _ & Hk & -> & _). cbn.
  destruct (or_else_trimmed a2 default_base_url) as [Hu Htu]; [done..|].
  destruct (or_else_trimmed a3 default_model) as [Hm Htm]; [done..|].
  rewrite (prompt_returns
             (mkWorld (trim a1 :: or_else (trim a2) default_base_url
                         :: or_else (trim a3) default_model :: rest) e s t)
             _ _ _ rest eq_refl);
    rewrite trim_idempotent; [|done].
  cbn. rewrite Htu, Htm.
  by rewrite (or_else_truthy _ default_base_url Hu),
       (or_else_truthy _ default_model Hm).
Qed.

(** The config of the answers " sk-test ", blank, "qwen3  " comes back
    from its own three fields. *)
Lemma promptForOpenAIConfig_fixed_point_witness :
  (promptForOpenAIConfig
     (typing [js "sk-test"; js "https://api.openai.com/v1"; js "qwen3";
              js "left alone"])).1 =
    Returned (mkFirstRunConfig (js "sk-test") default_base_url (js "qwen3")).
Proof.
  assert (Hrun : promptForOpenAIConfig
                   (typing [js " sk-test "; [9; 32]; js "qwen3  "]) =
                 (Returned
                    (mkFirstRunConfig (js "sk-test") default_base_url (js "qwen3")),
                  mkWorld [] ∅ [false]
                    (greeting ++ [ask_api_key 0; ask_base_url 0; ask_model 0]))).
  { vm_compute. reflexivity. }
  exact (promptForOpenAIConfig_fixed_point _ _ _ Hrun [js "left alone"] ∅ [] []).
Defined.

(** X10: [askQuestion] gives back the text between the white space at the
    two ends of the line, with the white space inside it untouched. *)
Theorem askQuestion_keeps_inner_text rl q w l m r rest c d :
  stdin w = (l ++ m ++ r) :: rest ->
  whitespace_only l ->
  whitespace_only r ->
  head m = Some c -> isWhiteSpace c = false ->
  last m = Some d -> isWhiteSpace d = false ->
  (askQuestion rl q w).1 = Returned m.
Proof.
  intros Hin Hl Hr Hc Hcw Hd Hdw.
  rewrite (askQuestion_answer _ _ _ _ _ Hin). cbn.
  by rewrite (trim_exact l m r c d).
Qed.

(** A model name of two words between a TAB and two spaces. *)
Lemma askQuestion_keeps_inner_text_witness :
  (askQuestion 0 (js "Enter OpenAI Model (press Enter for default: gpt-4): ")
     (typing [[9] ++ js "my  model" ++ js "  "])).1 =
    Returned (js "my  model").
Proof.
  apply (askQuestion_keeps_inner_text 0 _ (typing [[9] ++ js "my  model" ++ js "  "])
           [9] (js "my  model") (js "  ") [] 109 108).
  - reflexivity.
  - repeat constructor.
  - repeat constructor.
  - reflexivity.
  - reflexivity.
  - reflexivity.
  - reflexivity.
Defined.
End PromptMore.

(** ** More about the setup *)

Section SetupMore.
Context {S : Type} `{!SettingsStore S}.
Implicit Types (settings : S) (w : World).

Lemma isFirstRun_iff_first settings w :
  (isFirstRun settings w).1 = Returned true \/
  (isFirstRun settings w).1 = Returned false.
Proof. rewrite isFirstRun_eq. cbn. destruct (negb _ && negb _); auto. Qed.

(** Case analysis on a run of the setup: not a first run, or a first run
    with one of the five runs of the prompt. *)
Ltac setup_cases settings w :=
  let Hr := fresh "Hr" in
  let Hfirst := fresh "Hfirst" in
  rewrite ?handleFirstRunSetup_eq;
  destruct (isFirstRun_iff_first settings w) as [Hfirst|Hfirst];
  rewrite ?Hfirst;
  [ pose proof (promptForOpenAIConfig_run w) as Hr;
    destruct (promptForOpenAIConfig w) as [? ?]; cbn in Hr |- *;
    destruct Hr; cbn
  | cbn ].

(** Break a goal about one such run into its atoms and close what
    follows from the hypotheses of the run. *)
Ltac settle_case :=
  repeat match goal with
         | |- _ /\ _ => split
         | |- _ <-> _ => split
         | |- forall _, _ => intro
         | H : _ /\ _ |- _ => destruct H
         | H : exists _, _ |- _ => destruct H
         | H : _ \/ _ |- _ => destruct H
         | Ha : stdin ?w = _, Hb : stdin ?w = _ |- _ => rewrite Ha in Hb
         end;
  simplify_eq; try congruence; try done; eauto 10.

(** X5: [handleFirstRunSetup] never throws.  It ends the process, always
    with status 1, exactly on a first run whose first answer is blank; it
    stays pending exactly on a first run whose prompt stays pending; and
    when it returns, the store is untouched if this was no first run and
    holds the three fields of the config otherwise. *)
Theorem handleFirstRunSetup_outcome settings w :
  (forall e, (handleFirstRunSetup settings w).1 <> Thrown e) /\
  (forall code,
     (handleFirstRunSetup settings w).1 = Exited code <->
     code = 1%Z /\ (isFirstRun settings w).1 = Returned true /\
     exists a rest, stdin w = a :: rest /\ trim a = []) /\
  ((handleFirstRunSetup settings w).1 = Pending <->
   (isFirstRun settings w).1 = Returned true /\
   (promptForOpenAIConfig w).1 = Pending) /\
  (forall settings',
     (handleFirstRunSetup settings w).1 = Returned settings' <->
     ((isFirstRun settings w).1 = Returned false /\ settings' = settings) \/
     ((isFirstRun settings w).1 = Returned true /\
      exists cfg, (promptForOpenAIConfig w).1 = Returned cfg /\
                  settings' = saved_settings cfg settings)).
Proof.
  setup_cases settings w; settle_case.
Qed.

(** X6: no call of [setValue] made by [handleFirstRunSetup] writes an empty
    value or a value with white space at either end. *)
Theorem handleFirstRunSetup_writes_trimmed_values settings w :
  exists t,
    trace (handleFirstRunSetup settings w).2 = trace w ++ t /\
    forall scope key value,
      SetValue scope key value ∈ t ->
      value <> [] /\ trim value = value.
Proof.
  assert (Hfields : forall a1 a2 a3 c k scope key value,
    trim a1 = c :: k ->
    (scope, key, value) ∈
      [(User, js "openaiApiKey", trim a1);
       (User, js "openaiBaseUrl", or_else (trim a2) default_base_url);
       (User, js "openaiModel", or_else (trim a3) default_model)] ->
    value <> [] /\ trim value = value).
  { intros a1 a2 a3 c k scope key value Hk Hin.
    rewrite !elem_of_cons, elem_of_nil in Hin.
    destruct Hin as [Heq|[Heq|[Heq|[]]]]; injection Heq as -> -> ->.
    - split; [congruence|apply trim_idempotent].
    - by apply or_else_trimmed.
    - by apply or_else_trimmed. }
  setup_cases settings w; rewrite <- ?app_assoc;
    first [ eexists; split; [reflexivity|]
          | exists []; split; [by rewrite app_nil_r|] ];
    intros scope key value Hin; apply elem_of_setter_calls in Hin;
    cbn in Hin;
    first [ by apply elem_of_nil in Hin | by eapply Hfields ].
Qed.

(** X7: when [handleFirstRunSetup] returns or ends the process, the
    sessions are those of before with at most one more, which is closed:
    the session of the prompt is closed before [process.exit] is
    reached. *)
Theorem handleFirstRunSetup_leaves_no_session_open settings w :
  (handleFirstRunSetup settings w).1 <> Pending ->
  sessions (handleFirstRunSetup settings w).2 = sessions w \/
  sessions (handleFirstRunSetup settings w).2 = sessions w ++ [false].
Proof.
  setup_cases settings w; intros Hp; first [done | by left | by right].
Qed.

(** X11: [handleFirstRunSetup] writes to standard error exactly when it
    ends the process, and then once. *)
Theorem handleFirstRunSetup_stderr_iff_exit settings w :
  exists t,
    trace (handleFirstRunSetup settings w).2 = trace w ++ t /\
    (stderr_output t <> [] <->
     exists code, (handleFirstRunSetup settings w).1 = Exited code) /\
    (length (stderr_output t) <= 1)%nat.
Proof.
  setup_cases settings w; rewrite <- ?app_assoc;
    first [ eexists; split; [reflexivity|]
          | exists []; split; [by rewrite app_nil_r|] ];
    cbn; (split; [split|lia]); first [done | by intros [? ?] | by eexists].
Qed.

(** X8: for a store that gives back the user-scope [openaiApiKey] last
    written and keeps it under writes of other keys, a call of
    [handleFirstRunSetup] that has returned is not repeated: the next call
    in a process with the same environment changes nothing, whatever is
    typed. *)
Theorem handleFirstRunSetup_runs_once settings w settings' w' :
  (forall value s,
     user_openaiApiKey (setValue User (js "openaiApiKey") value s) =
       Some value) ->
  (forall key value s,
     key <> js "openaiApiKey" ->
     user_openaiApiKey (setValue User key value s) = user_openaiApiKey s) ->
  handleFirstRunSetup settings w = (Returned settings', w') ->
  forall w2,
    env w2 = env w ->
    handleFirstRunSetup settings' w2 = (Returned settings', w2).
Proof.
  intros Hget Hkeep Hrun w2 Henv.
  rewrite (handleFirstRunSetup_eq settings' w2).
  assert (Hfalse : (isFirstRun settings' w2).1 = Returned false);
    [|by rewrite Hfalse].
  apply isFirstRun_false.
  rewrite handleFirstRunSetup_eq in Hrun.
  destruct (isFirstRun_iff_first settings w) as [Hfirst|Hfirst];
    rewrite Hfirst in Hrun.
  - left. destruct (promptForOpenAIConfig w) as [[cfg|e|code|] w1] eqn:Hp;
      simplify_eq.
    destruct (prompt_returned_inv _ _ _ Hp)
      as (a1 & a2 & a3 & rest & _ & Hk & -> & _).
    unfold saved_settings. cbn.
    rewrite !Hkeep, Hget by (by vm_compute).
    destruct (trim a1) as [|c k]; [done|]. by exists c, k.
  - simplify_eq. apply isFirstRun_false in Hfirst. by rewrite Henv.
Qed.
End SetupMore.

(** ** More runs on the store in memory *)

Section MemoryStoreMore.
(** The store in memory gives back what was written last. *)
Lemma MemoryStore_get_set value (s : MemoryStore) :
  user_openaiApiKey (setValue User (js "openaiApiKey") value s) = Some value.
Proof. cbn. apply lookup_insert_eq. Qed.

Lemma MemoryStore_get_set_other key value (s : MemoryStore) :
  key <> js "openaiApiKey" ->
  user_openaiApiKey (setValue User key value s) = user_openaiApiKey s.
Proof. intros Hkey. cbn. by apply lookup_insert_ne. Qed.

(** A first run with a blank first answer and one older session: the
    process ends with the new session closed. *)
Lemma handleFirstRunSetup_leaves_no_session_open_witness :
  sessions (handleFirstRunSetup fresh_store (mkWorld [js "  "] ∅ [true] [])).2 =
    [true] \/
  sessions (handleFirstRunSetup fresh_store (mkWorld [js "  "] ∅ [true] [])).2 =
    [true] ++ [false].
Proof.
  apply (handleFirstRunSetup_leaves_no_session_open fresh_store
           (mkWorld [js "  "] ∅ [true] [])).
  by vm_compute.
Defined.

(** After a first run that saved "sk-test", a second call reads nothing. *)
Lemma handleFirstRunSetup_runs_once_witness :
  let cfg := mkFirstRunConfig (js "sk-test") default_base_url default_model in
  handleFirstRunSetup (saved_settings cfg fresh_store) (typing [js "typed later"]) =
    (Returned (saved_settings cfg fresh_store), typing [js "typed later"]).
Proof.
  intros cfg.
  assert (Hrun : handleFirstRunSetup fresh_store (typing [js "sk-test"; []; []]) =
                 (Returned (saved_settings cfg fresh_store),
                  after_events (save_events cfg fresh_store)
                    (mkWorld [] ∅ [false]
                       (greeting ++ [ask_api_key 0; ask_base_url 0; ask_model 0])))).
  { vm_compute. reflexivity. }
  exact (handleFirstRunSetup_runs_once fresh_store _ _ _
           MemoryStore_get_set MemoryStore_get_set_other Hrun
           (typing [js "typed later"]) eq_refl).
Defined.
End MemoryStoreMore.

(** ** Answers count through their trimmed form only *)

Section PromptInputs.
Implicit Types (a b : jsstring).

(** X12: two series of three answers with the same trimmed forms give the
    same outcome of [promptForOpenAIConfig]: the same config or the same
    error. *)
Theorem promptForOpenAIConfig_depends_on_trimmed a1 a2 a3 b1 b2 b3 rest rest' e s t :
  trim a1 = trim b1 ->
  trim a2 = trim b2 ->
  trim a3 = trim b3 ->
  (promptForOpenAIConfig (mkWorld (a1 :: a2 :: a3 :: rest) e s t)).1 =
  (promptForOpenAIConfig (mkWorld (b1 :: b2 :: b3 :: rest') e s t)).1.
Proof.
  intros H1 H2 H3.
  destruct (trim a1) as [|c k] eqn:Hk.
  - rewrite (prompt_rejects (mkWorld (a1 :: a2 :: a3 :: rest) e s t)
               a1 (a2 :: a3 :: rest) eq_refl Hk).
    by rewrite (prompt_rejects (mkWorld (b1 :: b2 :: b3 :: rest') e s t)
                  b1 (b2 :: b3 :: rest') eq_refl (eq_sym H1)).
  - rewrite (prompt_returns (mkWorld (a1 :: a2 :: a3 :: rest) e s t)
               a1 a2 a3 rest eq_refl) by congruence.
    rewrite (prompt_returns (mkWorld (b1 :: b2 :: b3 :: rest') e s t)
               b1 b2 b3 rest' eq_refl) by congruence.
    cbn. by rewrite Hk, H1, H2, H3.
Qed.

(** The same answers with and without white space around them. *)
Lemma promptForOpenAIConfig_depends_on_trimmed_witness :
  (promptForOpenAIConfig
     (typing [js " sk-test"; js "  "; js "qwen3 "; js "more"])).1 =
  (promptForOpenAIConfig (typing [js "sk-test"; []; js "qwen3"])).1.
Proof.
  apply (promptForOpenAIConfig_depends_on_trimmed
           (js " sk-test") (js "  ") (js "qwen3 ")
           (js "sk-test") [] (js "qwen3") [js "more"] [] ∅ [] []);
    reflexivity.
Defined.
End PromptInputs.
